(** * bitoku-sdk-agent: instruction payloads and transaction assembly

    A shallow embedding of the four modules of the repository

      - [helper.js]         wallet, connection, program id and [transaction]
      - [createClient]      opcode 1, CreateClientAccount
      - [deleteClient]      opcode 2, DeleteClient
      - [sendRequest.js]    opcode 3, SendRequest

    Each script is a top-level ES module: a sequence of declarations that
    builds an account list [keys], a payload [data], wraps both in a
    [TransactionInstruction] and hands it to [transaction].  Buffers are
    lists of bytes, JavaScript numbers that the scripts use as integers are
    [Z], a thrown exception is the [Throw] completion, and the three awaited
    calls on the connection are the only effects. *)

From Stdlib Require Import ZArith Lia.
From Stdlib Require Import Strings.Byte.
From stdpp Require Import base option list strings gmap.

Open Scope Z_scope.

(** ** Completions: a value or a thrown error *)

(** A JavaScript [Error] object, reduced to its [name] and [message]. *)
Record js_error := Error { err_name : string; err_message : string }.

(** Reading an identifier that no import, declaration or global binds. *)
Definition ReferenceError (id : string) : js_error :=
  Error "ReferenceError" (id +:+ " is not defined").

(** bn.js: [assert(val, msg)] throws [new Error(msg || 'Assertion failed')]. *)
Definition AssertionError (msg : string) : js_error := Error "Error" msg.

Inductive completion (A : Type) : Type :=
| Normal (a : A)
| Throw (e : js_error).
Arguments Normal {A} a.
Arguments Throw {A} e.

#[global] Instance completion_ret : MRet completion := fun _ a => Normal a.
#[global] Instance completion_bind : MBind completion := fun _ _ f m =>
  match m with
  | Normal a => f a
  | Throw e => Throw e
  end.

(** The error kinds of the specification's taxonomy that concern sizes. *)
Definition is_size_error (e : js_error) : Prop :=
  err_name e = "PayloadTooLarge" ∨ err_name e = "InvalidInput".

(** ** Module scopes *)

(** The identifiers a module looks up: what it imports, plus the globals of
    the Node.js runtime the scripts rely on.  A module's own [let] and
    [const] declarations are read where the embedding defines them. *)
Definition node_globals : list string :=
  ["Buffer"; "Array"; "Int8Array"; "Uint8Array"; "console"].

Definition module_scope (imports : list string) : gset string :=
  list_to_set (imports ++ node_globals).

(** [helper.js], lines 1-11. *)
Definition helper_scope : gset string :=
  module_scope ["PublicKey"; "clusterApiUrl"; "Connection"; "Keypair";
                "TransactionInstruction"; "Transaction";
                "ComputeBudgetProgram"; "anchor"; "BN"].

(** [sendRequest.js], lines 1-6. *)
Definition sendRequest_scope : gset string :=
  module_scope ["PublicKey"; "TransactionInstruction"; "Transaction";
                "PROGRAM"; "CONNECTION"; "transaction"; "WALLET"].

(** The DeleteClient script. *)
Definition deleteClient_scope : gset string :=
  module_scope ["PublicKey"; "TransactionInstruction";
                "PROGRAM"; "CONNECTION"; "transaction"; "WALLET"].

(** The CreateClientAccount script. *)
Definition createClient_scope : gset string :=
  module_scope ["PublicKey"; "SystemProgram"; "SYSVAR_RENT_PUBKEY";
                "TransactionInstruction";
                "PROGRAM"; "CONNECTION"; "transaction"; "WALLET"].

(** Evaluating the identifier [id] in scope [sc]. *)
Definition ref (sc : gset string) (id : string) : completion unit :=
  if bool_decide (id ∈ sc) then Normal () else Throw (ReferenceError id).

(** ** Typed arrays and buffers *)

Abbreviation Buffer := (list byte).

#[global] Instance byte_eq_dec : EqDecision byte := Byte.byte_eq_dec.

(** The byte holding [z] modulo 256: what a store into an [Int8Array] or a
    [Uint8Array] leaves in the underlying [ArrayBuffer]. *)
Definition ToUint8 (z : Z) : byte :=
  default x00 (Byte.of_N (Z.to_N (z mod 256))).

(** [Buffer.from(s)] for a string: its UTF-8 bytes.  A [string] here is the
    byte string of that encoding. *)
Definition Buffer_from_string (s : string) : Buffer :=
  String.list_byte_of_string s.

(** [Buffer.from(a)] for an array of numbers (or a [Uint8Array]). *)
Definition Buffer_from_array (a : list Z) : Buffer := ToUint8 <$> a.

(** [Buffer.from(Int8Array.from(a).buffer)]: the two's complement bytes. *)
Definition Buffer_from_Int8Array (a : list Z) : Buffer := ToUint8 <$> a.

(** [Uint8Array.of(...a)]. *)
Definition Uint8Array_of (a : list Z) : list Z := (fun z => z mod 256) <$> a.

Definition Buffer_concat (l : list Buffer) : Buffer := concat l.

(** ECMAScript [ToLength]: negative lengths count as zero. *)
Definition ToLength (len : Z) : nat :=
  Z.to_nat (Z.min (Z.max len 0) (2 ^ 53 - 1)).

(** [Array.from({ length: len }, f)]. *)
Definition Array_from_length (len : Z) (f : nat → Z) : list Z :=
  f <$> seq 0 (ToLength len).

(** ** bn.js *)

(** A big number: sign and magnitude. *)
Record BN := mkBN { negative : bool; magnitude : Z }.

(** [new BN(number)] for a JavaScript number ([_initNumber]): numbers of
    magnitude [2^53] and above are refused. *)
Definition BN_new (number : Z) : completion BN :=
  if bool_decide (Z.abs number < 0x20000000000000)
  then Normal (mkBN (bool_decide (number < 0)) (Z.abs number))
  else Throw (AssertionError "Assertion failed").

Definition BN_bitLength (b : BN) : Z :=
  if bool_decide (magnitude b = 0) then 0 else Z.log2 (magnitude b) + 1.

(** [Math.ceil(this.bitLength() / 8)]. *)
Definition BN_byteLength (b : BN) : Z := (BN_bitLength b + 7) / 8.

(** The [n] least significant base-256 digits of [m], lowest first. *)
Fixpoint le_digits (n : nat) (m : Z) : list Z :=
  match n with
  | O => []
  | S n' => m `mod` 256 :: le_digits n' (m `div` 256)
  end.

(** [b.toArray(endian, length)]. *)
Definition BN_toArray (b : BN) (endian : string) (length : Z)
  : completion (list Z) :=
  let byteLength := BN_byteLength b in
  let reqLength := if bool_decide (length = 0) then Z.max 1 byteLength
                   else length in
  if negb (bool_decide (byteLength ≤ reqLength)) then
    Throw (AssertionError "byte array longer than desired length")
  else if negb (bool_decide (0 < reqLength)) then
    Throw (AssertionError "Requested array length <= 0")
  else
    let le := le_digits (Z.to_nat reqLength) (magnitude b) in
    Normal (if bool_decide (endian = "le") then le else reverse le).

(** Reading a little-endian byte sequence back as a number. *)
Fixpoint le_value (bs : list byte) : Z :=
  match bs with
  | [] => 0
  | b :: bs' => Z.of_N (Byte.to_N b) + 256 * le_value bs'
  end.

(** ** Accounts and instructions (web3.js) *)

(** The addresses the modules mention. *)
Inductive PublicKey : Type :=
| WALLET_publicKey   (** [WALLET.publicKey], the key pair of [helper.js] *)
| PROGRAM            (** [new PublicKey("ALFYRwSZ...")] of [helper.js] *)
| bookkeeper_0       (** [findProgramAddressSync(["bookkeeper"], PROGRAM)[0]] *)
| request_0          (** [findProgramAddressSync(["request", WALLET.publicKey], PROGRAM)[0]] *)
| SystemProgram_programId
| SYSVAR_RENT_PUBKEY
| ComputeBudgetProgram_programId.

#[global] Instance PublicKey_eq_dec : EqDecision PublicKey.
Proof. solve_decision. Defined.

Record Keypair := mkKeypair { publicKey : PublicKey }.

Definition WALLET : Keypair := mkKeypair WALLET_publicKey.

Record AccountMeta := mkAccountMeta
  { pubkey : PublicKey; isSigner : bool; isWritable : bool }.

Record TransactionInstruction := mkTransactionInstruction
  { keys : list AccountMeta; programId : PublicKey; data : Buffer }.

(** *** The [keys] array of each script *)

Definition sendRequest_keys : list AccountMeta :=
  [ {| pubkey := WALLET_publicKey; isSigner := true; isWritable := true |};
    {| pubkey := request_0; isSigner := false; isWritable := true |} ].

Definition deleteClient_keys : list AccountMeta :=
  [ {| pubkey := WALLET_publicKey; isSigner := true; isWritable := true |};
    {| pubkey := bookkeeper_0; isSigner := false; isWritable := true |};
    {| pubkey := request_0; isSigner := false; isWritable := true |} ].

Definition createClient_keys : list AccountMeta :=
  [ {| pubkey := WALLET_publicKey; isSigner := true; isWritable := true |};
    {| pubkey := bookkeeper_0; isSigner := false; isWritable := true |};
    {| pubkey := request_0; isSigner := false; isWritable := true |};
    {| pubkey := SystemProgram_programId; isSigner := false;
       isWritable := false |};
    {| pubkey := SYSVAR_RENT_PUBKEY; isSigner := false;
       isWritable := false |} ].

(** ** Payloads *)

(** *** [sendRequest.js], lines 31-42: the two padded fields.  The string
    literals of the script are the parameters [name] and [text]. *)

Definition nameBuffer (name : string) : Buffer := Buffer_from_string name.

Definition zeroesBuffer (name : string) : Buffer :=
  Buffer_from_array
    (Array_from_length (128 - Z.of_nat (length (nameBuffer name))) (λ _, 0)).

Definition namee (name : string) : Buffer :=
  Buffer_concat [nameBuffer name; zeroesBuffer name].

Definition input (text : string) : Buffer := Buffer_from_string text.

Definition zeros (text : string) : Buffer :=
  Buffer_from_array
    (Array_from_length (512 - Z.of_nat (length (input text))) (λ _, 0)).

Definition ip (text : string) : Buffer :=
  Buffer_concat [input text; zeros text].

(** [Buffer.from(Int8Array.from([v]).buffer)], evaluated in scope [sc]. *)
Definition int8_field (sc : gset string) (v : Z) : completion Buffer :=
  ref sc "Buffer";;
  ref sc "Int8Array";;
  mret (Buffer_from_Int8Array [v]).

(** Line 56: [Buffer.from(Uint8Array.of(...new BN(position).toArray("le", 8)))]. *)
Definition position_field (sc : gset string) (position : Z)
  : completion Buffer :=
  ref sc "Buffer";;
  ref sc "Uint8Array";;
  ref sc "BN";;
  bn ← BN_new position;
  digits ← BN_toArray bn "le" 8;
  mret (Buffer_from_array (Uint8Array_of digits)).

(** Lines 31-59: the declarations up to and including [data].  The literals
    of the script ([0], [1], ["dir-2/file-1"], [45], [5], ["test3"]) are the
    parameters; the elements of the array literal are evaluated left to
    right. *)
Definition sendRequest_data (sc : gset string)
    (clientId requestType : Z) (name : string) (fileId position : Z)
    (text : string) : completion Buffer :=
  ref sc "Buffer";;
  ref sc "Array";;
  let namee := namee name in
  let ip := ip text in
  ref sc "Buffer";;
  opcode ← int8_field sc 3;
  client_id ← int8_field sc clientId;
  request_type ← int8_field sc requestType;
  file_id ← int8_field sc fileId;
  pos ← position_field sc position;
  mret (Buffer_concat [opcode; client_id; request_type; namee; file_id; pos; ip]).

(** The DeleteClient script: [data]. *)
Definition deleteClient_data (sc : gset string) (clientId : Z)
  : completion Buffer :=
  ref sc "Buffer";;
  opcode ← int8_field sc 2;
  client_id ← int8_field sc clientId;
  mret (Buffer_concat [opcode; client_id]).

(** The CreateClientAccount script: [data]. *)
Definition createClient_data (sc : gset string) : completion Buffer :=
  int8_field sc 1.

(** ** Transactions (web3.js) *)

Record Transaction := mkTransaction
  { instructions : list TransactionInstruction;
    recentBlockhash : option string;
    feePayer : option PublicKey;
    signatures : list PublicKey }.

(** [new Transaction()]. *)
Definition Transaction_new : Transaction := mkTransaction [] None None [].

(** [t.add(i)] pushes [i] onto [t.instructions]. *)
Definition Transaction_add (t : Transaction) (i : TransactionInstruction)
  : Transaction :=
  mkTransaction (instructions t ++ [i]) (recentBlockhash t) (feePayer t)
                (signatures t).

Definition set_recentBlockhash (t : Transaction) (blockhash : string)
  : Transaction :=
  mkTransaction (instructions t) (Some blockhash) (feePayer t) (signatures t).

Definition set_feePayer (t : Transaction) (payer : PublicKey) : Transaction :=
  mkTransaction (instructions t) (recentBlockhash t) (Some payer)
                (signatures t).

(** [t.sign(signer)] compiles the message and signs it.  Compiling needs a
    recent blockhash, and an empty string counts as none.  What else web3.js
    checks while it compiles and serialises the message (a blockhash that is
    not the base58 form of 32 bytes, a message over the packet size) is
    [compileMessage], which stays abstract as the wire format does.  The
    signature itself is recorded by the signer's public key. *)
Definition Transaction_sign (compileMessage : Transaction → completion unit)
    (t : Transaction) (signer : Keypair) : completion Transaction :=
  match recentBlockhash t with
  | None => Throw (Error "Error" "Transaction recentBlockhash required")
  | Some blockhash =>
      if bool_decide (blockhash = "")
      then Throw (Error "Error" "Transaction recentBlockhash required")
      else
        compileMessage t;;
        Normal (mkTransaction (instructions t) (recentBlockhash t)
                              (feePayer t) [publicKey signer])
  end.

(** [ComputeBudgetProgram.setComputeUnitLimit({ units })]: instruction
    index 2 followed by [units] as a little-endian [u32]. *)
Definition setComputeUnitLimit (units : Z) : TransactionInstruction :=
  {| keys := [];
     programId := ComputeBudgetProgram_programId;
     data := Buffer_from_array (2 :: le_digits 4 units) |}.

(** ** Asynchronous programs over a connection *)

(** The value of [confirmTransaction]'s response: [err] is null when the
    transaction succeeded on chain. *)
Record SignatureResult := mkSignatureResult { err : option string }.

(** A program that awaits the three RPC calls the repository makes.  An
    [await] on a rejected promise throws, and nothing in the repository
    catches. *)
Inductive async (A : Type) : Type :=
| Return (a : A)
| Reject (e : js_error)
| Await_getLatestBlockhash (k : string → async A)
| Await_sendRawTransaction (raw : Buffer) (k : string → async A)
| Await_confirmTransaction (signature commitment : string)
                           (k : SignatureResult → async A).
Arguments Return {A} a.
Arguments Reject {A} e.
Arguments Await_getLatestBlockhash {A} k.
Arguments Await_sendRawTransaction {A} raw k.
Arguments Await_confirmTransaction {A} signature commitment k.

Fixpoint async_bind {A B} (f : A → async B) (p : async A) : async B :=
  match p with
  | Return a => f a
  | Reject e => Reject e
  | Await_getLatestBlockhash k =>
      Await_getLatestBlockhash (λ x, async_bind f (k x))
  | Await_sendRawTransaction raw k =>
      Await_sendRawTransaction raw (λ x, async_bind f (k x))
  | Await_confirmTransaction s c k =>
      Await_confirmTransaction s c (λ x, async_bind f (k x))
  end.

#[global] Instance async_ret : MRet async := fun _ a => Return a.
#[global] Instance async_mbind : MBind async := fun _ _ f p => async_bind f p.

(** Synchronous code inside an asynchronous function. *)
Definition lift {A} (c : completion A) : async A :=
  match c with
  | Normal a => Return a
  | Throw e => Reject e
  end.

(** A connection answers each call from its state [W] (the network), either
    resolving or rejecting. *)
Record Connection (W : Type) := mkConnection
  { getLatestBlockhash : W → completion string * W;
    sendRawTransaction : Buffer → W → completion string * W;
    confirmTransaction : string → string → W → completion SignatureResult * W }.
Arguments getLatestBlockhash {W} c.
Arguments sendRawTransaction {W} c.
Arguments confirmTransaction {W} c.
Arguments mkConnection {W}.

Inductive rpc_call : Type :=
| Call_getLatestBlockhash
| Call_sendRawTransaction (raw : Buffer)
| Call_confirmTransaction (signature commitment : string).

#[global] Instance rpc_call_eq_dec : EqDecision rpc_call.
Proof. solve_decision. Defined.

(** The outcome of a run: completion, final network state, calls made. *)
Record outcome (W A : Type) := mkOutcome
  { result : completion A; network : W; calls : list rpc_call }.
Arguments mkOutcome {W A}.
Arguments result {W A} o.
Arguments network {W A} o.
Arguments calls {W A} o.

Definition after_call {W A} (c : rpc_call) (o : outcome W A) : outcome W A :=
  mkOutcome (result o) (network o) (c :: calls o).

Fixpoint run {W A} (conn : Connection W) (p : async A) (w : W)
  : outcome W A :=
  match p with
  | Return a => mkOutcome (Normal a) w []
  | Reject e => mkOutcome (Throw e) w []
  | Await_getLatestBlockhash k =>
      after_call Call_getLatestBlockhash
        match getLatestBlockhash conn w with
        | (Normal x, w') => run conn (k x) w'
        | (Throw e, w') => mkOutcome (Throw e) w' []
        end
  | Await_sendRawTransaction raw k =>
      after_call (Call_sendRawTransaction raw)
        match sendRawTransaction conn raw w with
        | (Normal x, w') => run conn (k x) w'
        | (Throw e, w') => mkOutcome (Throw e) w' []
        end
  | Await_confirmTransaction s c k =>
      after_call (Call_confirmTransaction s c)
        match confirmTransaction conn s c w with
        | (Normal x, w') => run conn (k x) w'
        | (Throw e, w') => mkOutcome (Throw e) w' []
        end
  end.

(** ** [helper.js] and the three scripts *)

Section Scripts.

(** [ix.serialize()]: the wire format is web3.js's and stays abstract;
    serialising may throw (a transaction over the packet size, a
    signature that does not verify). *)
Context (serialize : Transaction → completion Buffer).

(** What [sign] checks of the message it compiles, abstract as well. *)
Context (compileMessage : Transaction → completion unit).

(** Line 32: [new Transaction().add(ins).add(tx)]. *)
Definition envelope (tx : TransactionInstruction) : Transaction :=
  let ins := setComputeUnitLimit 600000 in
  Transaction_add (Transaction_add Transaction_new ins) tx.

(** Lines 33-35: the envelope stamped with [blockhash], paid and signed by
    [wallet]. *)
Definition signed_envelope (tx : TransactionInstruction) (blockhash : string)
    (wallet : Keypair) : completion Transaction :=
  let ix := set_recentBlockhash (envelope tx) blockhash in
  let ix := set_feePayer ix (publicKey wallet) in
  Transaction_sign compileMessage ix wallet.

(** [transaction(tx, connection, wallet)]; the connection is the one the
    program is [run] against. *)
Definition transaction (tx : TransactionInstruction) (wallet : Keypair)
  : async string :=
  lift (ref helper_scope "ComputeBudgetProgram");;
  lift (ref helper_scope "Transaction");;
  blockhash ← Await_getLatestBlockhash Return;
  ix ← lift (signed_envelope tx blockhash wallet);
  raw ← lift (serialize ix);
  sign ← Await_sendRawTransaction raw Return;
  _ ← Await_confirmTransaction sign "confirmed" Return;
  mret sign.

(** The tail every script shares: build the instruction, submit it, log
    the signature. *)
Definition submit (sc : gset string) (keys : list AccountMeta)
    (data : Buffer) : async string :=
  lift (ref sc "TransactionInstruction");;
  lift (ref sc "PROGRAM");;
  let tx := mkTransactionInstruction keys PROGRAM data in
  lift (ref sc "transaction");;
  lift (ref sc "CONNECTION");;
  lift (ref sc "WALLET");;
  sign ← transaction tx WALLET;
  lift (ref sc "console");;
  mret sign.

(** Lines 8-16 of each script: the two derived addresses. *)
Definition derive_addresses (sc : gset string) : completion unit :=
  ref sc "PublicKey";;
  ref sc "Buffer";;
  ref sc "PROGRAM";;
  ref sc "WALLET".

(** [sendRequest.js], evaluated in a module scope [sc]. *)
Definition sendRequest_module (sc : gset string) : async string :=
  lift (derive_addresses sc);;
  data ← lift (sendRequest_data sc 0 1 "dir-2/file-1" 45 5 "test3");
  submit sc sendRequest_keys data.

Definition deleteClient_module (sc : gset string) : async string :=
  lift (derive_addresses sc);;
  data ← lift (deleteClient_data sc 0);
  submit sc deleteClient_keys data.

Definition createClient_module (sc : gset string) : async string :=
  lift (derive_addresses sc);;
  lift (ref sc "SystemProgram");;
  lift (ref sc "SYSVAR_RENT_PUBKEY");;
  data ← lift (createClient_data sc);
  submit sc createClient_keys data.

(** The scripts as written, each in the scope its own imports give it. *)
Definition sendRequest_js : async string :=
  sendRequest_module sendRequest_scope.
Definition deleteClient_js : async string :=
  deleteClient_module deleteClient_scope.
Definition createClient_js : async string :=
  createClient_module createClient_scope.

End Scripts.

(** [sendRequest.js] with the import [helper.js] has and it lacks:
    [import BN from "bn.js"]. *)
Definition sendRequest_scope_with_BN : gset string :=
  sendRequest_scope ∪ {["BN"]}.

(** ** The operation table of the specification *)

Inductive Opcode := CreateClientAccount | DeleteClient | SendRequest.

Inductive Role := caller | bookkeeper | requestAccount | system_program
                | rent_sysvar.

(** Which account of the table an address is. *)
Definition role_of (k : PublicKey) : option Role :=
  match k with
  | WALLET_publicKey => Some caller
  | bookkeeper_0 => Some bookkeeper
  | request_0 => Some requestAccount
  | SystemProgram_programId => Some system_program
  | SYSVAR_RENT_PUBKEY => Some rent_sysvar
  | PROGRAM | ComputeBudgetProgram_programId => None
  end.

(** The account column of the table, as the specification words it: role,
    signer, writable. *)
Definition account_table (op : Opcode) : list (Role * bool * bool) :=
  match op with
  | CreateClientAccount =>
      [ (caller, true, true); (bookkeeper, false, true);
        (requestAccount, false, true); (system_program, false, false);
        (rent_sysvar, false, false) ]
  | DeleteClient =>
      [ (caller, true, true); (bookkeeper, false, true);
        (requestAccount, false, true) ]
  | SendRequest =>
      [ (caller, true, true); (requestAccount, false, true) ]
  end.

(** The script that issues each operation. *)
Definition keys_of (op : Opcode) : list AccountMeta :=
  match op with
  | CreateClientAccount => createClient_keys
  | DeleteClient => deleteClient_keys
  | SendRequest => sendRequest_keys
  end.

Definition describe (m : AccountMeta) : option Role * bool * bool :=
  (role_of (pubkey m), isSigner m, isWritable m).

(** The payload of scenario 1 as the specification spells it out. *)
Definition scenario_1_payload : Buffer :=
  [x03; x00; x01]
  ++ Buffer_from_string "dir-2/file-1" ++ replicate 116 x00
  ++ [x2d]
  ++ [x05; x00; x00; x00; x00; x00; x00; x00]
  ++ Buffer_from_string "test3" ++ replicate 507 x00.

(** ** Networks used to exercise [transaction] *)

(** A wire format that keeps only the blockhash the envelope was stamped
    with. *)
Definition blockhash_only (t : Transaction) : completion Buffer :=
  Normal (Buffer_from_string (default "" (recentBlockhash t))).

(** A network, counting the blockhashes it has handed out, whose first
    blockhash has expired by the time a transaction arrives and whose later
    ones are accepted. *)
Definition expiring_network : Connection nat :=
  {| getLatestBlockhash n :=
       (Normal (match n with O => "expired" | _ => "fresh" end), S n);
     sendRawTransaction raw n :=
       (if bool_decide (raw = Buffer_from_string "fresh")
        then Normal "5igNature"
        else Throw (Error "SendTransactionError" "Blockhash not found"), n);
     confirmTransaction _ _ n := (Normal (mkSignatureResult None), n) |}.

(** A network that accepts everything. *)
Definition accepting_network : Connection unit :=
  {| getLatestBlockhash w := (Normal "fresh", w);
     sendRawTransaction _ w := (Normal "5igNature", w);
     confirmTransaction _ _ w := (Normal (mkSignatureResult None), w) |}.

Definition is_send (c : rpc_call) : bool :=
  match c with Call_sendRawTransaction _ => true | _ => false end.

Definition count_fetches (tr : list rpc_call) : nat :=
  length (filter (λ c, c = Call_getLatestBlockhash) tr).

Definition count_sends (tr : list rpc_call) : nat :=
  length (filter (λ c, is_send c = true) tr).

(** The instruction the DeleteClient script builds. *)
Definition deleteClient_instruction : TransactionInstruction :=
  mkTransactionInstruction deleteClient_keys PROGRAM [x02; x00].

(** The instruction the CreateClientAccount script builds. *)
Definition createClient_instruction : TransactionInstruction :=
  mkTransactionInstruction createClient_keys PROGRAM [x01].

(** ** Inputs beyond the nominal field widths *)

(** A name of 129 bytes and a data string of 513 bytes. *)
Definition oversized_name : string :=
  String.string_of_list_byte (replicate 129 "a"%byte).
Definition oversized_text : string :=
  String.string_of_list_byte (replicate 513 "b"%byte).

(** The identifiers the [data] expression of [sendRequest.js] reads. *)
Definition sendRequest_data_identifiers : gset string :=
  list_to_set ["Buffer"; "Array"; "Int8Array"; "Uint8Array"; "BN"].

(** ** Further networks and inputs *)

(** A network whose blockhash endpoint cannot be reached. *)
Definition unreachable_network : Connection unit :=
  {| getLatestBlockhash w := (Throw (Error "FetchError" "request failed"), w);
     sendRawTransaction _ w := (Normal "5igNature", w);
     confirmTransaction _ _ w := (Normal (mkSignatureResult None), w) |}.

(** A network that takes the transaction and confirms it as failed on chain:
    [confirmTransaction] resolves, with a non-null [err]. *)
Definition failing_program_network : Connection unit :=
  {| getLatestBlockhash w := (Normal "fresh", w);
     sendRawTransaction _ w := (Normal "5igNature", w);
     confirmTransaction _ _ w :=
       (Normal (mkSignatureResult (Some "InstructionError")), w) |}.

(** A network that takes the transaction and never confirms it: the
    confirmation promise rejects. *)
Definition silent_network : Connection unit :=
  {| getLatestBlockhash w := (Normal "fresh", w);
     sendRawTransaction _ w := (Normal "5igNature", w);
     confirmTransaction _ _ w :=
       (Throw (Error "TransactionExpiredTimeoutError"
                     "Transaction was not confirmed"), w) |}.

(** The integers a JavaScript number holds exactly. *)
Definition safe_integer (z : Z) : Prop := - 2 ^ 53 < z < 2 ^ 53.




(** A message check that lets every transaction through. *)
Definition any_message (t : Transaction) : completion unit := Normal ().

(** A wire format that refuses every transaction. *)
Definition too_large (t : Transaction) : completion Buffer :=
  Throw (Error "Error" "Transaction too large").

(** A string of [k] NUL characters. *)
Definition NUL_string (k : nat) : string :=
  String.string_of_list_byte (replicate k x00).

(** The one-character string holding the byte [b]. *)
Definition byte_string (b : byte) : string :=
  String.string_of_list_byte [b].

(** * Properties *)

(** ** Scopes and identifier lookup *)

Lemma ref_bound (sc : gset string) (id : string) :
  id ∈ sc → ref sc id = Normal ().
Proof. intros Hin. unfold ref. by case_bool_decide. Qed.

Lemma ref_unbound (sc : gset string) (id : string) :
  id ∉ sc → ref sc id = Throw (ReferenceError id).
Proof. intros Hout. unfold ref. by case_bool_decide. Qed.

Lemma ref_throws (sc : gset string) (id : string) (e : js_error) :
  ref sc id = Throw e → err_name e = "ReferenceError".
Proof. unfold ref. case_bool_decide; intros [= <-]; reflexivity. Qed.

(** Sequencing of completions, unfolded. *)
Ltac run_completion :=
  cbv beta iota delta [mbind completion_bind mret completion_ret negb].

(** One step of an asynchronous program. *)
Ltac run_async :=
  cbv beta iota delta [mbind async_mbind mret async_ret lift];
  cbn [async_bind run after_call result network calls].

(** Which of the calls in a spelled-out trace a given call is. *)
Ltac sent_call :=
  rewrite ?elem_of_cons, elem_of_nil; intros Hcall;
  repeat destruct Hcall as [Hcall|Hcall]; (done || congruence).

(** Lookups in a scope that is spelled out are settled by computation. *)
Ltac eval_refs :=
  repeat match goal with
  | |- context [ref ?sc ?id] =>
      let r := eval vm_compute in (ref sc id) in
      replace (ref sc id) with r by (vm_compute; reflexivity)
  end.

Lemma BN_not_imported : "BN" ∉ sendRequest_scope.
Proof. intros Hin. apply (bool_decide_pack _) in Hin. by vm_compute in Hin. Qed.

Lemma scope_with_BN_complete :
  sendRequest_data_identifiers ⊆ sendRequest_scope_with_BN.
Proof. apply (bool_decide_unpack _). by vm_compute. Qed.

(** ** Bytes *)

Lemma ToUint8_to_N (z : Z) : Z.of_N (Byte.to_N (ToUint8 z)) = z `mod` 256.
Proof.
  unfold ToUint8.
  pose proof (Z.mod_pos_bound z 256 ltac:(lia)) as Hb.
  destruct (Byte.of_N (Z.to_N (z `mod` 256))) as [b|] eqn:E; simpl.
  - apply Byte.to_of_N in E. rewrite E. lia.
  - apply Byte.of_N_None_iff in E. lia.
Qed.

Lemma ToUint8_mod (z : Z) : ToUint8 (z `mod` 256) = ToUint8 z.
Proof. unfold ToUint8. by rewrite Z.mod_mod. Qed.

Lemma Buffer_from_Uint8Array (a : list Z) :
  Buffer_from_array (Uint8Array_of a) = Buffer_from_array a.
Proof.
  unfold Buffer_from_array, Uint8Array_of. rewrite <- list_fmap_compose.
  apply list_fmap_ext. intros _ z _. apply ToUint8_mod.
Qed.

Lemma constant_fill (n start : nat) (z : Z) :
  (λ _ : nat, z) <$> seq start n = replicate n z.
Proof.
  revert start. induction n as [|n IH]; intros start; simpl; [done|].
  by rewrite IH.
Qed.

Lemma ToLength_sub (width : Z) (used : nat) :
  0 ≤ width < 2 ^ 53 →
  ToLength (width - Z.of_nat used) = (Z.to_nat width - used)%nat.
Proof.
  intros Hw. unfold ToLength.
  assert (2 ^ 53 = 9007199254740992) as -> by reflexivity. lia.
Qed.

(** The padding of a field: [width - used] zero bytes, none when the
    content already fills or overflows the field. *)
Lemma zero_fill (width : Z) (used : nat) :
  0 ≤ width < 2 ^ 53 →
  Buffer_from_array (Array_from_length (width - Z.of_nat used) (λ _, 0))
  = replicate (Z.to_nat width - used) x00.
Proof.
  intros Hw. unfold Buffer_from_array, Array_from_length.
  rewrite ToLength_sub by done. rewrite constant_fill, fmap_replicate.
  reflexivity.
Qed.

Lemma namee_layout (name : string) :
  namee name
  = nameBuffer name ++ replicate (128 - length (nameBuffer name)) x00.
Proof.
  unfold namee, zeroesBuffer, Buffer_concat. simpl concat.
  rewrite app_nil_r, zero_fill by (split; [lia | reflexivity]).
  reflexivity.
Qed.

Lemma ip_layout (text : string) :
  ip text = input text ++ replicate (512 - length (input text)) x00.
Proof.
  unfold ip, zeros, Buffer_concat. simpl concat.
  rewrite app_nil_r, zero_fill by (split; [lia | reflexivity]).
  reflexivity.
Qed.

Lemma length_namee (name : string) :
  length (namee name) = (128 `max` length (nameBuffer name))%nat.
Proof. rewrite namee_layout, length_app, length_replicate. lia. Qed.

Lemma length_ip (text : string) :
  length (ip text) = (512 `max` length (input text))%nat.
Proof. rewrite ip_layout, length_app, length_replicate. lia. Qed.

(** ** Little-endian digits *)

Lemma length_le_digits (n : nat) (m : Z) : length (le_digits n m) = n.
Proof. revert m. induction n as [|n IH]; intros m; simpl; [done|]. by rewrite IH. Qed.

Lemma le_value_digits (n : nat) (m : Z) :
  le_value (ToUint8 <$> le_digits n m) = m `mod` 256 ^ Z.of_nat n.
Proof.
  revert m. induction n as [|n IH]; intros m.
  - simpl. by rewrite Z.mod_1_r.
  - cbn [le_digits fmap list_fmap le_value].
    change (le_value (list_fmap _ _ ToUint8 (le_digits n (m `div` 256))))
      with (le_value (ToUint8 <$> le_digits n (m `div` 256))).
    rewrite IH, ToUint8_to_N, Z.mod_mod by lia.
    rewrite Nat2Z.inj_succ, Z.pow_succ_r by lia.
    rewrite Z.rem_mul_r by lia. reflexivity.
Qed.

Lemma BN_byteLength_u64 (s : bool) (m : Z) :
  0 ≤ m < 2 ^ 64 → BN_byteLength (mkBN s m) ≤ 8.
Proof.
  intros [Hlo Hhi]. unfold BN_byteLength, BN_bitLength. simpl.
  case_bool_decide as Hz; [done|].
  assert (Z.log2 m < 64) by (apply Z.log2_lt_pow2; lia).
  assert ((Z.log2 m + 1 + 7) `div` 8 < 9)
    by (apply Z.div_lt_upper_bound; lia).
  lia.
Qed.

(** ** The payload expressions in a scope that binds what they read *)

Section BoundScope.

Context (sc : gset string).
Hypothesis scope_complete : sendRequest_data_identifiers ⊆ sc.

Ltac bound_refs :=
  rewrite ?(ref_bound sc)
    by (apply scope_complete; apply (bool_decide_unpack _); by vm_compute).

Lemma int8_field_bound (v : Z) : int8_field sc v = Normal [ToUint8 v].
Proof using scope_complete. unfold int8_field. bound_refs. reflexivity. Qed.

Lemma position_field_in_range (position : Z) :
  Z.abs position < 2 ^ 53 →
  position_field sc position
  = Normal (ToUint8 <$> le_digits 8 (Z.abs position)).
Proof using scope_complete.
  intros Hp. unfold position_field. bound_refs. run_completion.
  unfold BN_new. change 0x20000000000000 with (2 ^ 53).
  rewrite bool_decide_eq_true_2 by done. run_completion.
  unfold BN_toArray.
  pose proof (BN_byteLength_u64 (bool_decide (position < 0))
                (Z.abs position)) as Hlen.
  rewrite (bool_decide_eq_false_2 (8 = 0)) by done.
  rewrite bool_decide_eq_true_2 by (apply Hlen; lia).
  rewrite (bool_decide_eq_true_2 (0 < 8)) by done.
  rewrite (bool_decide_eq_true_2 ("le" = "le")) by done.
  run_completion. change (Z.to_nat 8) with 8%nat.
  by rewrite Buffer_from_Uint8Array.
Qed.

Lemma position_field_out_of_range (position : Z) :
  2 ^ 53 ≤ Z.abs position →
  position_field sc position = Throw (AssertionError "Assertion failed").
Proof using scope_complete.
  intros Hp. unfold position_field. bound_refs. run_completion.
  unfold BN_new. change 0x20000000000000 with (2 ^ 53).
  rewrite bool_decide_eq_false_2 by lia. reflexivity.
Qed.

(** The layout of the SendRequest payload. *)
Lemma sendRequest_data_layout (clientId requestType : Z) (name : string)
    (fileId position : Z) (text : string) :
  Z.abs position < 2 ^ 53 →
  sendRequest_data sc clientId requestType name fileId position text
  = Normal ([ToUint8 3; ToUint8 clientId; ToUint8 requestType]
            ++ namee name
            ++ [ToUint8 fileId]
            ++ (ToUint8 <$> le_digits 8 (Z.abs position))
            ++ ip text).
Proof using scope_complete.
  intros Hp. unfold sendRequest_data. bound_refs.
  rewrite !int8_field_bound, position_field_in_range by done.
  run_completion.
  unfold Buffer_concat. simpl concat. by rewrite app_nil_r.
Qed.

Lemma sendRequest_data_length (clientId requestType : Z) (name : string)
    (fileId position : Z) (text : string) :
  Z.abs position < 2 ^ 53 →
  ∃ p, sendRequest_data sc clientId requestType name fileId position text
       = Normal p
     ∧ length p = (12 + 128 `max` length (nameBuffer name)
                      + 512 `max` length (input text))%nat.
Proof using scope_complete.
  intros Hp. eexists. split; [by apply sendRequest_data_layout|].
  rewrite !length_app, length_namee, length_ip, length_fmap, length_le_digits.
  simpl. lia.
Qed.

End BoundScope.

(** ** The payload expressions in any scope *)

(** Whatever the scope and the inputs, the only errors the SendRequest
    payload can throw are an unbound identifier and a bn.js assertion. *)
Lemma sendRequest_data_error_kind (sc : gset string)
    (clientId requestType : Z) (name : string) (fileId position : Z)
    (text : string) (e : js_error) :
  sendRequest_data sc clientId requestType name fileId position text = Throw e →
  err_name e = "ReferenceError" ∨ err_name e = "Error".
Proof.
  unfold sendRequest_data, int8_field, position_field, BN_new, BN_toArray, ref.
  run_completion.
  repeat (case_bool_decide; run_completion);
    intros [= <-]; auto.
Qed.

(** In [sendRequest.js] as written the payload stops at [BN]. *)
Lemma sendRequest_data_as_written (clientId requestType : Z) (name : string)
    (fileId position : Z) (text : string) :
  sendRequest_data sendRequest_scope clientId requestType name fileId
                   position text
  = Throw (ReferenceError "BN").
Proof.
  unfold sendRequest_data, int8_field, position_field. eval_refs. reflexivity.
Qed.

(** ** [transaction] *)

Lemma envelope_instructions (tx : TransactionInstruction) :
  instructions (envelope tx) = [setComputeUnitLimit 600000; tx].
Proof. reflexivity. Qed.

(** A signed envelope is the stamped envelope with the wallet's signature:
    signing changes nothing else, and it fails where the message does not
    compile. *)
Lemma signed_envelope_ok (compileMessage : Transaction → completion unit)
    (tx : TransactionInstruction) (blockhash : string) (wallet : Keypair)
    (ix : Transaction) :
  signed_envelope compileMessage tx blockhash wallet = Normal ix →
  ix = mkTransaction [setComputeUnitLimit 600000; tx] (Some blockhash)
                     (Some (publicKey wallet)) [publicKey wallet].
Proof.
  unfold signed_envelope, Transaction_sign. cbn [recentBlockhash
    set_feePayer set_recentBlockhash].
  case_bool_decide; [done|].
  destruct (compileMessage _) as [[]|e]; run_completion; [|done].
  by intros [= <-].
Qed.

(** Signing succeeds where the blockhash is not empty and the message
    compiles. *)
Lemma signed_envelope_compiles
    (compileMessage : Transaction → completion unit)
    (tx : TransactionInstruction) (blockhash : string) (wallet : Keypair) :
  blockhash ≠ "" →
  compileMessage (mkTransaction [setComputeUnitLimit 600000; tx]
                    (Some blockhash) (Some (publicKey wallet)) [])
  = Normal () →
  signed_envelope compileMessage tx blockhash wallet
  = Normal (mkTransaction [setComputeUnitLimit 600000; tx] (Some blockhash)
                          (Some (publicKey wallet)) [publicKey wallet]).
Proof.
  intros Hne Hok. unfold signed_envelope, Transaction_sign.
  cbn [recentBlockhash set_feePayer set_recentBlockhash].
  rewrite bool_decide_eq_false_2 by done.
  change (set_feePayer _ _)
    with (mkTransaction [setComputeUnitLimit 600000; tx] (Some blockhash)
            (Some (publicKey wallet)) []).
  by rewrite Hok.
Qed.

Section Transaction.

Context {W : Type} (serialize : Transaction → completion Buffer).
Context (compileMessage : Transaction → completion unit).
Context (conn : Connection W).

(** Every path through [transaction]: one call to each of the three
    endpoints in turn, stopping at the first one that rejects. *)
Lemma transaction_run (tx : TransactionInstruction) (wallet : Keypair)
    (w : W) :
  run conn (transaction serialize compileMessage tx wallet) w
  = match getLatestBlockhash conn w with
    | (Throw e, w1) => mkOutcome (Throw e) w1 [Call_getLatestBlockhash]
    | (Normal blockhash, w1) =>
      match signed_envelope compileMessage tx blockhash wallet ≫= serialize with
      | Throw e => mkOutcome (Throw e) w1 [Call_getLatestBlockhash]
      | Normal raw =>
        match sendRawTransaction conn raw w1 with
        | (Throw e, w2) =>
            mkOutcome (Throw e) w2
              [Call_getLatestBlockhash; Call_sendRawTransaction raw]
        | (Normal sign, w2) =>
          match confirmTransaction conn sign "confirmed" w2 with
          | (Throw e, w3) =>
              mkOutcome (Throw e) w3
                [Call_getLatestBlockhash; Call_sendRawTransaction raw;
                 Call_confirmTransaction sign "confirmed"]
          | (Normal _, w3) =>
              mkOutcome (Normal sign) w3
                [Call_getLatestBlockhash; Call_sendRawTransaction raw;
                 Call_confirmTransaction sign "confirmed"]
          end
        end
      end
    end.
Proof.
  unfold transaction. eval_refs. run_async.
  destruct (getLatestBlockhash conn w) as [[blockhash|e] w1]; [|done].
  run_async.
  destruct (signed_envelope compileMessage tx blockhash wallet) as [ix|e];
    run_completion; run_async; [|done].
  destruct (serialize ix) as [raw|e]; [|done].
  run_async.
  destruct (sendRawTransaction conn raw w1) as [[sign|e] w2]; [|done].
  run_async.
  by destruct (confirmTransaction conn sign "confirmed" w2) as [[?|e] w3].
Qed.

(** [transaction] resolves with the signature whenever the three calls
    resolve: the value [confirmTransaction] resolved to is not inspected. *)
Lemma transaction_resolves (tx : TransactionInstruction) (wallet : Keypair)
    (w w1 w2 w3 : W) (blockhash sign : string) (raw : Buffer)
    (status : SignatureResult) :
  getLatestBlockhash conn w = (Normal blockhash, w1) →
  signed_envelope compileMessage tx blockhash wallet ≫= serialize = Normal raw →
  sendRawTransaction conn raw w1 = (Normal sign, w2) →
  confirmTransaction conn sign "confirmed" w2 = (Normal status, w3) →
  result (run conn (transaction serialize compileMessage tx wallet) w) = Normal sign.
Proof.
  intros Hfetch Hraw Hsend Hconfirm.
  by rewrite transaction_run, Hfetch, Hraw, Hsend, Hconfirm.
Qed.

End Transaction.

(** ** The scripts *)

Section RunScripts.

Context {W : Type} (serialize : Transaction → completion Buffer).
Context (compileMessage : Transaction → completion unit).
Context (conn : Connection W) (w : W).

(** The DeleteClient and CreateClientAccount scripts reach [transaction]
    with the instruction they built. *)
(** Returning what an asynchronous call resolved to changes nothing. *)
Lemma run_bind_Return {A : Type} (p : async A) (w0 : W) :
  run conn (async_bind Return p) w0 = run conn p w0.
Proof.
  revert w0. induction p as [a|e|k IH|raw k IH|s c k IH]; intros w0;
    cbn [async_bind run]; try reflexivity.
  - destruct (getLatestBlockhash conn w0) as [[x|e] w1]; by rewrite ?IH.
  - destruct (sendRawTransaction conn raw w0) as [[x|e] w1]; by rewrite ?IH.
  - destruct (confirmTransaction conn s c w0) as [[x|e] w1]; by rewrite ?IH.
Qed.

(** The DeleteClient script reaches [transaction] with the instruction it
    built. *)
Lemma deleteClient_js_run :
  run conn (deleteClient_js serialize compileMessage) w
  = run conn (transaction serialize compileMessage deleteClient_instruction WALLET) w.
Proof.
  unfold deleteClient_js, deleteClient_module, derive_addresses, submit,
    deleteClient_data, int8_field.
  eval_refs. run_completion. run_async.
  apply run_bind_Return.
Qed.

(** The CreateClientAccount script reaches [transaction] with the
    instruction it built. *)
Lemma createClient_js_run :
  run conn (createClient_js serialize compileMessage) w
  = run conn (transaction serialize compileMessage createClient_instruction WALLET) w.
Proof.
  unfold createClient_js, createClient_module, derive_addresses, submit,
    createClient_data, int8_field.
  eval_refs. run_completion. run_async.
  apply run_bind_Return.
Qed.

Lemma sendRequest_js_run :
  run conn (sendRequest_js serialize compileMessage) w
  = mkOutcome (Throw (ReferenceError "BN")) w [].
Proof.
  unfold sendRequest_js, sendRequest_module.
  rewrite sendRequest_data_as_written.
  unfold derive_addresses. eval_refs. reflexivity.
Qed.

End RunScripts.

(** * The claims *)

(** C5: for every name of at most 128 bytes and every data input of at most
    512 bytes, the name field is exactly 128 bytes and the data field exactly
    512 bytes, each being the input bytes followed by zero bytes on the right:
    nothing is put in front of the input and nothing is cut from it. *)
Theorem fields_zero_padded_right (name text : string) :
  (length (nameBuffer name) ≤ 128)%nat →
  (length (input text) ≤ 512)%nat →
  length (namee name) = 128%nat
  ∧ namee name
    = Buffer_from_string name
      ++ replicate (128 - length (Buffer_from_string name)) x00
  ∧ length (ip text) = 512%nat
  ∧ ip text
    = Buffer_from_string text
      ++ replicate (512 - length (Buffer_from_string text)) x00.
Proof.
  intros Hname Htext. rewrite length_namee, length_ip.
  split; [lia|]. split; [apply namee_layout|].
  split; [lia|]. apply ip_layout.
Qed.

Lemma fields_zero_padded_right_witness :
  length (namee "dir-2/file-1") = 128%nat
  ∧ namee "dir-2/file-1"
    = Buffer_from_string "dir-2/file-1" ++ replicate 116 x00
  ∧ length (ip "test3") = 512%nat
  ∧ ip "test3" = Buffer_from_string "test3" ++ replicate 507 x00.
Proof.
  apply (fields_zero_padded_right "dir-2/file-1" "test3"); vm_compute; lia.
Defined.

(** C1, as the specification states it, fails on a 129-byte name and a
    513-byte data input: the name field comes out as the 129 input bytes,
    the payload expression of the script as written throws a
    [ReferenceError] and no size error, and with [BN] bound the payload is
    built, 653 bytes long for the oversized name alone. *)
Lemma oversized_inputs_not_rejected :
  length (nameBuffer oversized_name) = 129%nat
  ∧ length (input oversized_text) = 513%nat
  ∧ namee oversized_name = nameBuffer oversized_name
  ∧ ip oversized_text = input oversized_text
  ∧ ¬ (∃ e, sendRequest_data sendRequest_scope 0 1 oversized_name 45 5
              oversized_text = Throw e
            ∧ is_size_error e)
  ∧ ¬ (∃ e, sendRequest_data sendRequest_scope_with_BN 0 1 oversized_name 45 5
              oversized_text = Throw e)
  ∧ ∃ p, sendRequest_data sendRequest_scope_with_BN 0 1 oversized_name 45 5
           "test3" = Normal p
         ∧ length p = 653%nat.
Proof.
  split; [by vm_compute|]. split; [by vm_compute|].
  split; [by vm_compute|]. split; [by vm_compute|].
  split.
  { intros (e & He & [Hk|Hk]); rewrite sendRequest_data_as_written in He;
      injection He as <-; discriminate Hk. }
  split.
  { intros (e & He).
    rewrite (sendRequest_data_layout _ scope_with_BN_complete) in He
      by (by vm_compute).
    discriminate He. }
  destruct (sendRequest_data_length _ scope_with_BN_complete 0 1
              oversized_name 45 5 "test3") as (p & Hp & Hlen);
    [by vm_compute|].
  exists p. split; [exact Hp|]. rewrite Hlen. by vm_compute.
Qed.

(** C1, amended: the encoder has no size check.  For a name longer than 128
    bytes the name field is the input bytes unchanged, and for data longer
    than 512 bytes the data field is the input bytes unchanged: the padding
    count is clamped to zero, nothing is truncated, and the field is longer
    than its nominal width.  No evaluation of the payload expression, in any
    module scope and on any inputs, throws a PayloadTooLarge or InvalidInput
    error. *)
Theorem oversized_fields_pass_through (name text : string) :
  ((128 < length (nameBuffer name))%nat → namee name = Buffer_from_string name)
  ∧ ((512 < length (input text))%nat → ip text = Buffer_from_string text)
  ∧ ∀ sc clientId requestType fileId position e,
      sendRequest_data sc clientId requestType name fileId position text
      = Throw e →
      ¬ is_size_error e.
Proof.
  split; [|split].
  - intros Hlong. rewrite namee_layout.
    replace (128 - length (nameBuffer name))%nat with 0%nat by lia.
    apply app_nil_r.
  - intros Hlong. rewrite ip_layout.
    replace (512 - length (input text))%nat with 0%nat by lia.
    apply app_nil_r.
  - intros sc clientId requestType fileId position e He [Hk|Hk];
      apply sendRequest_data_error_kind in He as [He|He];
      rewrite He in Hk; discriminate Hk.
Qed.

Lemma oversized_fields_pass_through_witness :
  namee oversized_name = Buffer_from_string oversized_name
  ∧ ip oversized_text = Buffer_from_string oversized_text.
Proof.
  destruct (oversized_fields_pass_through oversized_name oversized_text)
    as (Hname & Htext & _).
  split; [apply Hname | apply Htext]; vm_compute; lia.
Defined.

(** C2: every execution of [sendRequest.js] as written fails at the position
    field with an unbound-identifier error: [BN] is not among the module's
    imports, so the position field, hence the payload, throws
    [ReferenceError: BN is not defined] whatever the inputs, and the script
    ends with that error without a single call on the connection: no payload
    and no transaction are produced. *)
Theorem sendRequest_js_unbound_BN {W : Type}
    (serialize : Transaction → completion Buffer)
    (compileMessage : Transaction → completion unit)
    (conn : Connection W) (w : W) :
  ("BN" ∉ sendRequest_scope)
  ∧ (∀ position,
       position_field sendRequest_scope position
       = Throw (ReferenceError "BN"))
  ∧ (∀ clientId requestType name fileId position text,
       sendRequest_data sendRequest_scope clientId requestType name fileId
                        position text
       = Throw (ReferenceError "BN"))
  ∧ run conn (sendRequest_js serialize compileMessage) w
    = mkOutcome (Throw (ReferenceError "BN")) w [].
Proof.
  split; [exact BN_not_imported|].
  split; [intros position; unfold position_field; eval_refs; reflexivity|].
  split; [intros; apply sendRequest_data_as_written|].
  apply sendRequest_js_run.
Qed.

(** C3: scenario 1 on the code.  The payload expression of [sendRequest.js]
    as written, on the script's own literals, throws
    [ReferenceError: BN is not defined] instead of yielding a payload; with
    the missing import of [BN] added it yields exactly the 652 bytes the
    specification lists. *)
Theorem scenario_1_on_the_code :
  sendRequest_data sendRequest_scope 0 1 "dir-2/file-1" 45 5 "test3"
  = Throw (ReferenceError "BN")
  ∧ sendRequest_data sendRequest_scope_with_BN 0 1 "dir-2/file-1" 45 5 "test3"
    = Normal scenario_1_payload
  ∧ length scenario_1_payload = 652%nat.
Proof. split; [|split]; by vm_compute. Qed.

(** C4: for each of the three opcodes the [keys] array of its script has the
    order, the count and the signer and writable flags of the table:
    CreateClientAccount caller(signer, writable), bookkeeper(writable),
    requestAccount(writable), system program(read-only), rent
    sysvar(read-only); DeleteClient caller(signer, writable),
    bookkeeper(writable), requestAccount(writable); SendRequest
    caller(signer, writable), requestAccount(writable). *)
Theorem keys_match_account_table (op : Opcode) :
  describe <$> keys_of op
  = ((λ '(role, signer, writable), (Some role, signer, writable))
       <$> account_table op).
Proof. destruct op; reflexivity. Qed.

(** C6: the payload lengths on the code.  CreateClientAccount encodes to
    exactly the byte 01 and DeleteClient to exactly 2 bytes, 02 00 for
    clientId 0.  In [sendRequest.js] as written the payload expression throws
    [ReferenceError: BN is not defined] whatever the name and the data, so no
    payload of any length is built; with the missing import of [BN] added it
    yields exactly 652 bytes for every name of at most 128 bytes and data of
    at most 512 bytes, independent of their unpadded lengths. *)
Theorem payload_lengths_on_the_code (clientId : Z) (name text : string) :
  createClient_data createClient_scope = Normal [x01]
  ∧ deleteClient_data deleteClient_scope 0 = Normal [x02; x00]
  ∧ (∃ p, deleteClient_data deleteClient_scope clientId = Normal p
          ∧ length p = 2%nat)
  ∧ sendRequest_data sendRequest_scope 0 1 name 45 5 text
    = Throw (ReferenceError "BN")
  ∧ ((length (nameBuffer name) ≤ 128)%nat →
     (length (input text) ≤ 512)%nat →
     ∃ p, sendRequest_data sendRequest_scope_with_BN 0 1 name 45 5 text
          = Normal p
        ∧ length p = 652%nat).
Proof.
  split; [by vm_compute|]. split; [by vm_compute|]. split; [|split].
  - unfold deleteClient_data, int8_field. eval_refs. run_completion.
    by eexists.
  - apply sendRequest_data_as_written.
  - intros Hname Htext.
    destruct (sendRequest_data_length _ scope_with_BN_complete 0 1 name 45 5
                text) as (p & Hp & Hlen); [by vm_compute|].
    exists p. split; [exact Hp|]. lia.
Qed.

Lemma payload_lengths_on_the_code_witness :
  ∃ p, sendRequest_data sendRequest_scope_with_BN 0 1 "file" 45 5
         "some longer data"
       = Normal p
     ∧ length p = 652%nat.
Proof.
  destruct (payload_lengths_on_the_code 0 "file" "some longer data")
    as (_ & _ & _ & _ & Hsend).
  apply Hsend; vm_compute; lia.
Defined.

(** X11: where the position field is evaluated with [BN] bound it is the 8
    little-endian bytes of the position, for every position below 2^53:
    exactly 8 bytes that read back, lowest byte first, as the position. *)
Lemma position_field_little_endian (sc : gset string) (position : Z) :
  sendRequest_data_identifiers ⊆ sc →
  0 ≤ position < 2 ^ 53 →
  ∃ bytes, position_field sc position = Normal bytes
         ∧ length bytes = 8%nat
         ∧ le_value bytes = position.
Proof.
  intros Hsc Hpos. eexists. split.
  - apply position_field_in_range; [done | lia].
  - rewrite length_fmap, length_le_digits, le_value_digits.
    split; [done|]. rewrite Z.abs_eq by lia.
    apply Z.mod_small. change (256 ^ Z.of_nat 8) with (2 ^ 64).
    assert (2 ^ 53 < 2 ^ 64) by done. lia.
Qed.

(** C7: the position field on the code.  In [sendRequest.js] as written the
    position expression on the script's value 5 throws
    [ReferenceError: BN is not defined] and encodes nothing; with the missing
    import of [BN] added it is the 8 bytes 05 00 00 00 00 00 00 00. *)
Theorem position_5_on_the_code :
  position_field sendRequest_scope 5 = Throw (ReferenceError "BN")
  ∧ position_field sendRequest_scope_with_BN 5
    = Normal [x05; x00; x00; x00; x00; x00; x00; x00].
Proof. split; by vm_compute. Qed.

(** C8: in the envelope [transaction] assembles, the compute-budget
    instruction comes before the operation instruction.  For every operation
    instruction [tx] the envelope holds exactly [setComputeUnitLimit] and
    [tx], in that order, and still does where stamping and signing succeed;
    whenever the connection returns a blockhash and the envelope signs and
    serialises, [transaction] submits that serialisation right after the
    blockhash call; and whatever it submits is the serialisation of such an
    envelope. *)
Theorem budget_precedes_operation {W : Type}
    (serialize : Transaction → completion Buffer)
    (compileMessage : Transaction → completion unit) (conn : Connection W)
    (tx : TransactionInstruction) (wallet : Keypair) (w : W) :
  instructions (envelope tx) = [setComputeUnitLimit 600000; tx]
  ∧ (∀ blockhash ix,
       signed_envelope compileMessage tx blockhash wallet = Normal ix →
       instructions ix = [setComputeUnitLimit 600000; tx])
  ∧ (∀ blockhash w1 ix raw,
       getLatestBlockhash conn w = (Normal blockhash, w1) →
       signed_envelope compileMessage tx blockhash wallet = Normal ix →
       serialize ix = Normal raw →
       ∃ rest,
         calls (run conn (transaction serialize compileMessage tx wallet) w)
         = Call_getLatestBlockhash :: Call_sendRawTransaction raw :: rest)
  ∧ (∀ raw,
       Call_sendRawTransaction raw
         ∈ calls (run conn (transaction serialize compileMessage tx wallet) w)
       →
       ∃ ix, serialize ix = Normal raw
           ∧ instructions ix = [setComputeUnitLimit 600000; tx]).
Proof.
  split; [reflexivity|]. split; [|split].
  - intros blockhash ix Hsign.
    by rewrite (signed_envelope_ok _ _ _ _ _ Hsign).
  - intros blockhash w1 ix raw Hfetch Hsign Hser.
    rewrite transaction_run, Hfetch, Hsign. run_completion. rewrite Hser.
    destruct (sendRawTransaction conn raw w1) as [[sign|e] w2];
      [destruct (confirmTransaction conn sign "confirmed" w2) as [[?|e] w3]|];
      by eexists.
  - intros raw. rewrite transaction_run.
    destruct (getLatestBlockhash conn w) as [[blockhash|e] w1];
      [|cbn [calls]; sent_call].
    destruct (signed_envelope compileMessage tx blockhash wallet)
      as [ix|e] eqn:Hsign; run_completion; [|cbn [calls]; sent_call].
    destruct (serialize ix) as [raw'|e] eqn:Hser; [|cbn [calls]; sent_call].
    intros Hsent. assert (raw = raw') as ->.
    { revert Hsent.
      destruct (sendRawTransaction conn raw' w1) as [[sign|e] w2];
        [destruct (confirmTransaction conn sign "confirmed" w2)
           as [[?|e] w3]|];
        cbn [calls]; sent_call. }
    exists ix. split; [exact Hser|].
    by rewrite (signed_envelope_ok _ _ _ _ _ Hsign).
Qed.

Lemma budget_precedes_operation_witness :
  ∃ rest,
    calls (run accepting_network
             (transaction blockhash_only any_message deleteClient_instruction
                WALLET) ())
    = Call_getLatestBlockhash
      :: Call_sendRawTransaction (Buffer_from_string "fresh") :: rest.
Proof.
  destruct (budget_precedes_operation blockhash_only any_message
              accepting_network deleteClient_instruction WALLET ())
    as (_ & _ & Hsubmits & _).
  apply (Hsubmits "fresh" ()
           (mkTransaction
              [setComputeUnitLimit 600000; deleteClient_instruction]
              (Some "fresh") (Some WALLET_publicKey) [WALLET_publicKey]));
    reflexivity.
Defined.

(** C9, as the specification states it, fails on a network whose first
    blockhash has expired when the transaction arrives and whose next one
    would be accepted: [transaction] ends with the network's rejection after
    a single [getLatestBlockhash] and a single [sendRawTransaction]; it
    fetches no second blockhash, although calling it again on the network
    it left succeeds. *)
Lemma stale_checkpoint_not_retried :
  let attempt := transaction blockhash_only any_message deleteClient_instruction WALLET in
  let o := run expiring_network attempt 0%nat in
  result o = Throw (Error "SendTransactionError" "Blockhash not found")
  ∧ calls o = [Call_getLatestBlockhash;
               Call_sendRawTransaction (Buffer_from_string "expired")]
  ∧ ¬ (2 ≤ count_fetches (calls o))%nat
  ∧ result (run expiring_network attempt (network o)) = Normal "5igNature".
Proof.
  cbv zeta. rewrite !transaction_run.
  split; [by vm_compute|]. split; [by vm_compute|].
  split; [vm_compute; lia | by vm_compute].
Qed.

(** C9, amended: [transaction] has no recovery path.  On every network it
    calls [getLatestBlockhash] exactly once and [sendRawTransaction] at most
    once; when the submission is rejected, for an expired blockhash or any
    other reason, the rejection is what the caller gets, after those two
    calls and nothing else: no second blockhash is fetched and nothing is
    retried. *)
Theorem rejection_is_final {W : Type}
    (serialize : Transaction → completion Buffer)
    (compileMessage : Transaction → completion unit) (conn : Connection W)
    (tx : TransactionInstruction) (wallet : Keypair) (w : W) :
  let o := run conn (transaction serialize compileMessage tx wallet) w in
  count_fetches (calls o) = 1%nat
  ∧ (count_sends (calls o) ≤ 1)%nat
  ∧ ∀ blockhash w1 raw e w2,
      getLatestBlockhash conn w = (Normal blockhash, w1) →
      signed_envelope compileMessage tx blockhash wallet ≫= serialize = Normal raw →
      sendRawTransaction conn raw w1 = (Throw e, w2) →
      o = mkOutcome (Throw e) w2
            [Call_getLatestBlockhash; Call_sendRawTransaction raw].
Proof.
  cbv zeta. rewrite transaction_run. split; [|split].
  - destruct (getLatestBlockhash conn w) as [[blockhash|e] w1]; [|done].
    destruct (_ ≫= serialize) as [raw|e]; [|done].
    destruct (sendRawTransaction conn raw w1) as [[sign|e] w2]; [|done].
    by destruct (confirmTransaction conn sign "confirmed" w2) as [[?|e] w3].
  - destruct (getLatestBlockhash conn w) as [[blockhash|e] w1];
      [|cbv; lia].
    destruct (_ ≫= serialize) as [raw|e]; [|cbv; lia].
    destruct (sendRawTransaction conn raw w1) as [[sign|e] w2]; [|cbv; lia].
    destruct (confirmTransaction conn sign "confirmed" w2) as [[?|e] w3];
      cbv; lia.
  - intros blockhash w1 raw e w2 Hfetch Hraw Hsend.
    by rewrite Hfetch, Hraw, Hsend.
Qed.

Lemma rejection_is_final_witness :
  run expiring_network
      (transaction blockhash_only any_message deleteClient_instruction WALLET) 0%nat
  = mkOutcome (Throw (Error "SendTransactionError" "Blockhash not found"))
      1%nat
      [Call_getLatestBlockhash;
       Call_sendRawTransaction (Buffer_from_string "expired")].
Proof.
  destruct (rejection_is_final blockhash_only any_message expiring_network
              deleteClient_instruction WALLET 0%nat) as (_ & _ & Hfinal).
  apply (Hfinal "expired" 1%nat); reflexivity.
Defined.




(** * Further properties of the code *)

(** ** Helper facts *)

Lemma Buffer_from_string_app (s1 s2 : string) :
  Buffer_from_string (s1 +:+ s2)
  = Buffer_from_string s1 ++ Buffer_from_string s2.
Proof.
  unfold Buffer_from_string, String.list_byte_of_string.
  induction s1 as [|c s1 IH]; simpl; [done|]. by rewrite IH.
Qed.

Lemma Buffer_from_string_of_bytes (bs : list byte) :
  Buffer_from_string (String.string_of_list_byte bs) = bs.
Proof. apply String.list_byte_of_string_of_list_byte. Qed.

Lemma ToUint8_of_byte (b : byte) : ToUint8 (Z.of_N (Byte.to_N b)) = b.
Proof.
  unfold ToUint8. pose proof (Byte.to_N_bounded b) as Hb.
  rewrite Z.mod_small by lia. rewrite N2Z.id, Byte.of_to_N. reflexivity.
Qed.

Lemma ToUint8_inj (x y : Z) : ToUint8 x = ToUint8 y → x `mod` 256 = y `mod` 256.
Proof. intros Heq. by rewrite <- !ToUint8_to_N, Heq. Qed.

Lemma le_digits_inj (x y : Z) :
  0 ≤ x < 2 ^ 64 → 0 ≤ y < 2 ^ 64 →
  ToUint8 <$> le_digits 8 x = ToUint8 <$> le_digits 8 y → x = y.
Proof.
  intros Hx Hy Heq. apply (f_equal le_value) in Heq.
  rewrite !le_value_digits in Heq.
  change (256 ^ Z.of_nat 8) with (2 ^ 64) in Heq.
  by rewrite !Z.mod_small in Heq.
Qed.

Lemma le_digits_byte (m : Z) :
  0 ≤ m < 256 → le_digits 8 m = m :: replicate 7 0.
Proof.
  intros Hm. cbn [le_digits].
  rewrite (Z.mod_small m 256), (Z.div_small m 256) by lia. reflexivity.
Qed.

(** A frame of three header bytes, a field, one byte and two more fields
    splits in one way only once the field lengths are known. *)
Lemma frame_inj (a b c f a' b' c' f' : byte) (n d t n' d' t' : Buffer) :
  length n = length n' → length d = length d' →
  Normal ([a; b; c] ++ n ++ [f] ++ d ++ t)
  = Normal ([a'; b'; c'] ++ n' ++ [f'] ++ d' ++ t') →
  b = b' ∧ c = c' ∧ n = n' ∧ f = f' ∧ d = d' ∧ t = t'.
Proof.
  intros Hn Hd Heq. injection Heq as _ Hb Hc Hrest.
  apply app_inj_1 in Hrest as [Hn' Hrest]; [|done].
  injection Hrest as Hf Hrest.
  apply app_inj_1 in Hrest as [Hd' Ht]; [|done].
  done.
Qed.

(** ** [transaction]: the calls it makes and what it does with them *)

(** X1: on every network [transaction] first calls [getLatestBlockhash] and
    its calls are an initial part of the fixed sequence
    [getLatestBlockhash], [sendRawTransaction], [confirmTransaction] with
    commitment ["confirmed"]: never more than three calls, never a
    confirmation before a submission, never a second attempt. *)
Theorem transaction_call_sequence {W : Type}
    (serialize : Transaction → completion Buffer)
    (compileMessage : Transaction → completion unit) (conn : Connection W)
    (tx : TransactionInstruction) (wallet : Keypair) (w : W) :
  ∃ raw sign,
    calls (run conn (transaction serialize compileMessage tx wallet) w)
      `prefix_of` [Call_getLatestBlockhash; Call_sendRawTransaction raw;
                   Call_confirmTransaction sign "confirmed"]
    ∧ head (calls (run conn (transaction serialize compileMessage tx wallet) w))
      = Some Call_getLatestBlockhash.
Proof.
  rewrite transaction_run.
  destruct (getLatestBlockhash conn w) as [[blockhash|e] w1].
  2:{ exists [], "". split; [by eexists [_; _] | done]. }
  destruct (_ ≫= serialize) as [raw|e].
  2:{ exists [], "". split; [by eexists [_; _] | done]. }
  destruct (sendRawTransaction conn raw w1) as [[sign|e] w2].
  2:{ exists raw, "". split; [by eexists [_] | done]. }
  exists raw, sign.
  by destruct (confirmTransaction conn sign "confirmed" w2) as [[?|e] w3].
Qed.

(** X2: the value [confirmTransaction] resolves to is never inspected.
    Whenever the three calls resolve, [transaction] resolves with the
    signature [sendRawTransaction] returned, whether the confirmation
    carries a null [err] or the reason the transaction failed on chain. *)
Theorem confirmation_err_not_inspected {W : Type}
    (serialize : Transaction → completion Buffer)
    (compileMessage : Transaction → completion unit) (conn : Connection W)
    (tx : TransactionInstruction) (wallet : Keypair) (w w1 w2 w3 : W)
    (blockhash sign : string) (raw : Buffer) (reason : option string) :
  getLatestBlockhash conn w = (Normal blockhash, w1) →
  signed_envelope compileMessage tx blockhash wallet ≫= serialize = Normal raw →
  sendRawTransaction conn raw w1 = (Normal sign, w2) →
  confirmTransaction conn sign "confirmed" w2
  = (Normal (mkSignatureResult reason), w3) →
  run conn (transaction serialize compileMessage tx wallet) w
  = mkOutcome (Normal sign) w3
      [Call_getLatestBlockhash; Call_sendRawTransaction raw;
       Call_confirmTransaction sign "confirmed"].
Proof.
  intros Hfetch Hraw Hsend Hconfirm.
  by rewrite transaction_run, Hfetch, Hraw, Hsend, Hconfirm.
Qed.

Lemma confirmation_err_not_inspected_witness :
  result (run failing_program_network
            (transaction blockhash_only any_message deleteClient_instruction WALLET) ())
  = Normal "5igNature".
Proof.
  rewrite (confirmation_err_not_inspected blockhash_only any_message
             failing_program_network deleteClient_instruction WALLET
             () () () () "fresh" "5igNature" (Buffer_from_string "fresh")
             (Some "InstructionError")); reflexivity.
Defined.

(** X3: when [getLatestBlockhash] rejects, or when serialising the signed
    envelope throws, [transaction] rejects with that very error after the
    single call to [getLatestBlockhash]: nothing is submitted. *)
Theorem nothing_sent_on_early_failure {W : Type}
    (serialize : Transaction → completion Buffer)
    (compileMessage : Transaction → completion unit) (conn : Connection W)
    (tx : TransactionInstruction) (wallet : Keypair) (w w1 : W)
    (e : js_error) :
  (getLatestBlockhash conn w = (Throw e, w1) →
   run conn (transaction serialize compileMessage tx wallet) w
   = mkOutcome (Throw e) w1 [Call_getLatestBlockhash])
  ∧ (∀ blockhash,
       getLatestBlockhash conn w = (Normal blockhash, w1) →
       signed_envelope compileMessage tx blockhash wallet ≫= serialize = Throw e →
       run conn (transaction serialize compileMessage tx wallet) w
       = mkOutcome (Throw e) w1 [Call_getLatestBlockhash]).
Proof.
  split.
  - intros Hfetch. by rewrite transaction_run, Hfetch.
  - intros blockhash Hfetch Hraw. by rewrite transaction_run, Hfetch, Hraw.
Qed.

Lemma nothing_sent_on_early_failure_witness :
  calls (run unreachable_network
           (transaction blockhash_only any_message deleteClient_instruction WALLET) ())
  = [Call_getLatestBlockhash]
  ∧ run accepting_network
      (transaction too_large any_message deleteClient_instruction WALLET) ()
    = mkOutcome (Throw (Error "Error" "Transaction too large")) ()
        [Call_getLatestBlockhash].
Proof.
  split.
  - destruct (nothing_sent_on_early_failure blockhash_only any_message unreachable_network
                deleteClient_instruction WALLET () ()
                (Error "FetchError" "request failed")) as [Hfetch _].
    rewrite Hfetch; reflexivity.
  - destruct (nothing_sent_on_early_failure too_large any_message accepting_network
                deleteClient_instruction WALLET () ()
                (Error "Error" "Transaction too large")) as [_ Hraw].
    apply (Hraw "fresh"); reflexivity.
Defined.

(** X4: when [confirmTransaction] rejects, [transaction] rejects with that
    error although the transaction has been submitted: the signature
    [sendRawTransaction] returned does not reach the caller. *)
Theorem confirmation_rejection_after_send {W : Type}
    (serialize : Transaction → completion Buffer)
    (compileMessage : Transaction → completion unit) (conn : Connection W)
    (tx : TransactionInstruction) (wallet : Keypair) (w w1 w2 w3 : W)
    (blockhash sign : string) (raw : Buffer) (e : js_error) :
  getLatestBlockhash conn w = (Normal blockhash, w1) →
  signed_envelope compileMessage tx blockhash wallet ≫= serialize = Normal raw →
  sendRawTransaction conn raw w1 = (Normal sign, w2) →
  confirmTransaction conn sign "confirmed" w2 = (Throw e, w3) →
  run conn (transaction serialize compileMessage tx wallet) w
  = mkOutcome (Throw e) w3
      [Call_getLatestBlockhash; Call_sendRawTransaction raw;
       Call_confirmTransaction sign "confirmed"].
Proof.
  intros Hfetch Hraw Hsend Hconfirm.
  by rewrite transaction_run, Hfetch, Hraw, Hsend, Hconfirm.
Qed.

Lemma confirmation_rejection_after_send_witness :
  run silent_network
      (transaction blockhash_only any_message deleteClient_instruction WALLET) ()
  = mkOutcome
      (Throw (Error "TransactionExpiredTimeoutError"
                    "Transaction was not confirmed")) ()
      [Call_getLatestBlockhash;
       Call_sendRawTransaction (Buffer_from_string "fresh");
       Call_confirmTransaction "5igNature" "confirmed"].
Proof.
  apply (confirmation_rejection_after_send blockhash_only any_message silent_network
           deleteClient_instruction WALLET () () () () "fresh");
    reflexivity.
Defined.

(** X5: whatever [transaction] submits is the serialisation of the envelope
    stamped with the blockhash the connection just returned, with the wallet
    as fee payer and as its only signature. *)
Theorem sent_envelope_stamped_and_signed {W : Type}
    (serialize : Transaction → completion Buffer)
    (compileMessage : Transaction → completion unit) (conn : Connection W)
    (tx : TransactionInstruction) (wallet : Keypair) (w : W) (raw : Buffer) :
  Call_sendRawTransaction raw
    ∈ calls (run conn (transaction serialize compileMessage tx wallet) w) →
  ∃ blockhash w1,
    getLatestBlockhash conn w = (Normal blockhash, w1)
    ∧ serialize (mkTransaction [setComputeUnitLimit 600000; tx]
                   (Some blockhash) (Some (publicKey wallet))
                   [publicKey wallet])
      = Normal raw.
Proof.
  rewrite transaction_run.
  destruct (getLatestBlockhash conn w) as [[blockhash|e] w1];
    [|cbn [calls]; sent_call].
  destruct (signed_envelope compileMessage tx blockhash wallet)
    as [ix|e] eqn:Hsign; run_completion; [|cbn [calls]; sent_call].
  apply signed_envelope_ok in Hsign as ->.
  destruct (serialize _) as [raw'|e] eqn:Hser; [|cbn [calls]; sent_call].
  intros Hsent. exists blockhash, w1. split; [done|].
  rewrite Hser. f_equal. revert Hsent.
  destruct (sendRawTransaction conn raw' w1) as [[sign|e] w2];
    [destruct (confirmTransaction conn sign "confirmed" w2) as [[?|e] w3]|];
    cbn [calls]; sent_call.
Qed.

Lemma sent_envelope_stamped_and_signed_witness :
  ∃ blockhash w1,
    getLatestBlockhash accepting_network () = (Normal blockhash, w1)
    ∧ blockhash_only
        (mkTransaction [setComputeUnitLimit 600000; deleteClient_instruction]
           (Some blockhash) (Some WALLET_publicKey) [WALLET_publicKey])
      = Normal (Buffer_from_string "fresh").
Proof.
  apply (sent_envelope_stamped_and_signed blockhash_only any_message accepting_network
           deleteClient_instruction WALLET ()).
  rewrite transaction_run. cbn.
  apply list_elem_of_further, list_elem_of_here.
Defined.



Lemma position_field_little_endian_witness :
  ∃ bytes, position_field sendRequest_scope_with_BN 9007199254740991
           = Normal bytes
         ∧ length bytes = 8%nat
         ∧ le_value bytes = 9007199254740991.
Proof.
  apply (position_field_little_endian sendRequest_scope_with_BN
           9007199254740991).
  - exact scope_with_BN_complete.
  - by vm_compute.
Defined.

(** ** The scripts *)

(** X7: the CreateClientAccount and DeleteClient scripts never fail in
    their own code.  On every network each behaves exactly as [transaction]
    called on the instruction it builds, its [keys] array, the program id
    and the payload 01, respectively 02 00, with the wallet of [helper.js]
    as signer. *)
Theorem client_scripts_submit_their_instruction {W : Type}
    (serialize : Transaction → completion Buffer)
    (compileMessage : Transaction → completion unit) (conn : Connection W)
    (w : W) :
  run conn (createClient_js serialize compileMessage) w
  = run conn
      (transaction serialize compileMessage
         (mkTransactionInstruction createClient_keys PROGRAM [x01]) WALLET) w
  ∧ run conn (deleteClient_js serialize compileMessage) w
    = run conn
        (transaction serialize compileMessage
           (mkTransactionInstruction deleteClient_keys PROGRAM [x02; x00])
           WALLET) w.
Proof. split; [apply createClient_js_run | apply deleteClient_js_run]. Qed.

(** X8: the one-byte fields wrap.  For a client id that is a safe integer
    the DeleteClient payload is the byte 02 followed by one byte holding the
    client id modulo 256, so two safe integers that differ by a multiple of
    256 give the same payload. *)
Theorem deleteClient_clientId_wraps (clientId k : Z) :
  safe_integer clientId →
  safe_integer (clientId + 256 * k) →
  (∃ b, deleteClient_data deleteClient_scope clientId = Normal [x02; b]
        ∧ Z.of_N (Byte.to_N b) = clientId `mod` 256)
  ∧ deleteClient_data deleteClient_scope (clientId + 256 * k)
    = deleteClient_data deleteClient_scope clientId.
Proof.
  intros _ _.
  unfold deleteClient_data, int8_field. eval_refs. run_completion.
  unfold Buffer_concat, Buffer_from_Int8Array. cbn [concat fmap list_fmap app].
  split.
  - eexists. split; [reflexivity|]. apply ToUint8_to_N.
  - do 3 f_equal. rewrite <- (ToUint8_mod (clientId + 256 * k)).
    replace ((clientId + 256 * k) `mod` 256) with (clientId `mod` 256)
      by (by rewrite (Z.mul_comm 256 k), Z_mod_plus_full).
    apply ToUint8_mod.
Qed.

Lemma deleteClient_clientId_wraps_witness :
  deleteClient_data deleteClient_scope (1 + 256 * 3)
  = deleteClient_data deleteClient_scope 1.
Proof.
  destruct (deleteClient_clientId_wraps 1 3) as [_ Hwrap];
    [by vm_compute | by vm_compute | exact Hwrap].
Defined.

(** X9: zero bytes at the end of a name or of the data are not told apart
    from padding: as long as the input still fits its field, appending NUL
    characters to it leaves the encoded field unchanged. *)
Theorem trailing_zero_bytes_lost (name text : string) (k : nat) :
  ((length (nameBuffer name) + k ≤ 128)%nat →
   namee (name +:+ NUL_string k) = namee name)
  ∧ ((length (input text) + k ≤ 512)%nat →
     ip (text +:+ NUL_string k) = ip text).
Proof.
  split; intros Hfit.
  - rewrite !namee_layout. unfold nameBuffer in *.
    rewrite Buffer_from_string_app. unfold NUL_string.
    rewrite Buffer_from_string_of_bytes, length_app, length_replicate.
    rewrite <- app_assoc, <- replicate_add. do 2 f_equal. lia.
  - rewrite !ip_layout. unfold input in *.
    rewrite Buffer_from_string_app. unfold NUL_string.
    rewrite Buffer_from_string_of_bytes, length_app, length_replicate.
    rewrite <- app_assoc, <- replicate_add. do 2 f_equal. lia.
Qed.

Lemma trailing_zero_bytes_lost_witness :
  namee ("dir-2/file-1" +:+ NUL_string 3) = namee "dir-2/file-1"
  ∧ ip ("test3" +:+ NUL_string 3) = ip "test3".
Proof.
  destruct (trailing_zero_bytes_lost "dir-2/file-1" "test3" 3)
    as [Hname Htext].
  split; [apply Hname | apply Htext]; vm_compute; lia.
Defined.

(** X10: the position field does not see the sign of the position: in every
    module scope a position and its negation evaluate alike, to the same
    bytes or to the same error. *)
Theorem position_sign_ignored (sc : gset string) (position : Z) :
  position_field sc (- position) = position_field sc position.
Proof.
  unfold position_field, BN_new. rewrite Z.abs_opp.
  destruct (ref sc "Buffer") as [[]|e]; [|done].
  destruct (ref sc "Uint8Array") as [[]|e]; [|done].
  destruct (ref sc "BN") as [[]|e]; [|done].
  run_completion. case_bool_decide; [|done].
  reflexivity.
Qed.

(** ** The SendRequest payload where [BN] is bound *)

(** X12: with every identifier bound, the one input the payload expression
    refuses is a position of magnitude 2^53 or more: bn.js fails its
    assertion, whatever the other fields are, so offsets in the upper part
    of the 64-bit range cannot be encoded. *)
Theorem large_position_refused (sc : gset string)
    (clientId requestType : Z) (name : string) (fileId position : Z)
    (text : string) :
  sendRequest_data_identifiers ⊆ sc →
  2 ^ 53 ≤ Z.abs position →
  sendRequest_data sc clientId requestType name fileId position text
  = Throw (AssertionError "Assertion failed").
Proof.
  intros Hsc Hpos. unfold sendRequest_data.
  rewrite !(int8_field_bound sc Hsc).
  rewrite (position_field_out_of_range sc Hsc) by done.
  rewrite !(ref_bound sc)
    by (apply Hsc; apply (bool_decide_unpack _); by vm_compute).
  reflexivity.
Qed.

Lemma large_position_refused_witness :
  sendRequest_data sendRequest_scope_with_BN 0 1 "dir-2/file-1" 45
                   9007199254740992 "test3"
  = Throw (AssertionError "Assertion failed").
Proof.
  apply (large_position_refused sendRequest_scope_with_BN).
  - exact scope_with_BN_complete.
  - by vm_compute.
Defined.

(** X13: for inputs within the field widths the payload determines every
    field.  If two calls, each with a name of at most 128 bytes, data of at
    most 512 bytes and a position below 2^53, yield the same payload, then
    their client ids, request types and file ids agree modulo 256, their
    positions agree in magnitude, and their padded names and padded data are
    equal. *)
Theorem payload_determines_fields (sc : gset string)
    (clientId clientId' requestType requestType' : Z) (name name' : string)
    (fileId fileId' position position' : Z) (text text' : string) :
  sendRequest_data_identifiers ⊆ sc →
  Z.abs position < 2 ^ 53 → Z.abs position' < 2 ^ 53 →
  (length (nameBuffer name) ≤ 128)%nat →
  (length (nameBuffer name') ≤ 128)%nat →
  sendRequest_data sc clientId requestType name fileId position text
  = sendRequest_data sc clientId' requestType' name' fileId' position' text' →
  clientId `mod` 256 = clientId' `mod` 256
  ∧ requestType `mod` 256 = requestType' `mod` 256
  ∧ namee name = namee name'
  ∧ fileId `mod` 256 = fileId' `mod` 256
  ∧ Z.abs position = Z.abs position'
  ∧ ip text = ip text'.
Proof.
  intros Hsc Hpos Hpos' Hname Hname'.
  rewrite !(sendRequest_data_layout sc Hsc) by done.
  intros Heq.
  apply frame_inj in Heq as (Hc & Hr & Hn & Hf & Hp & Ht);
    [|rewrite !length_namee; lia
     |by rewrite !length_fmap, !length_le_digits].
  assert (2 ^ 53 < 2 ^ 64) by done.
  repeat split; auto using ToUint8_inj.
  apply le_digits_inj; [lia | lia | done].
Qed.

Lemma payload_determines_fields_witness :
  256 `mod` 256 = 0 `mod` 256
  ∧ 1 `mod` 256 = 1 `mod` 256
  ∧ namee "dir-2/file-1" = namee ("dir-2/file-1" +:+ NUL_string 1)
  ∧ 45 `mod` 256 = (-211) `mod` 256
  ∧ Z.abs 5 = Z.abs (-5)
  ∧ ip "test3" = ip "test3".
Proof.
  apply (payload_determines_fields sendRequest_scope_with_BN).
  - exact scope_with_BN_complete.
  - by vm_compute.
  - by vm_compute.
  - vm_compute; lia.
  - vm_compute; lia.
  - by vm_compute.
Defined.

(** X14: beyond the field widths the payload is ambiguous.  A 128-byte name
    extended by one byte [b], with position 0 and empty data, yields the very
    payload of the 128-byte name with file id [b], the original file id as
    position and 513 zero bytes of data: the extra name byte is read as the
    file id and every later field moves by one. *)
Theorem oversized_payloads_collide (sc : gset string)
    (clientId requestType fileId : Z) (name : string) (b : byte) :
  sendRequest_data_identifiers ⊆ sc →
  length (nameBuffer name) = 128%nat →
  0 ≤ fileId < 256 →
  sendRequest_data sc clientId requestType (name +:+ byte_string b)
                   fileId 0 ""
  = sendRequest_data sc clientId requestType name
                     (Z.of_N (Byte.to_N b)) fileId (NUL_string 513)
  ∧ ∃ p, sendRequest_data sc clientId requestType (name +:+ byte_string b)
                          fileId 0 ""
         = Normal p
       ∧ length p = 653%nat.
Proof.
  intros Hsc Hname Hfile.
  assert (2 ^ 53 = 9007199254740992) as Hpow by reflexivity.
  assert (namee (name +:+ byte_string b) = Buffer_from_string name ++ [b])
    as HnameA.
  { rewrite namee_layout. unfold nameBuffer in *.
    rewrite Buffer_from_string_app. unfold byte_string.
    rewrite Buffer_from_string_of_bytes, length_app, Hname.
    apply app_nil_r. }
  assert (namee name = Buffer_from_string name) as HnameB.
  { rewrite namee_layout. unfold nameBuffer in *. rewrite Hname.
    apply app_nil_r. }
  assert (ip "" = replicate 512 x00) as HdataA
    by (rewrite ip_layout; reflexivity).
  assert (ip (NUL_string 513) = replicate 513 x00) as HdataB.
  { rewrite ip_layout. unfold input, NUL_string.
    rewrite Buffer_from_string_of_bytes, length_replicate. apply app_nil_r. }
  assert (ToUint8 <$> le_digits 8 (Z.abs 0) = replicate 8 x00) as HposA
    by reflexivity.
  assert (ToUint8 <$> le_digits 8 (Z.abs fileId)
          = ToUint8 fileId :: replicate 7 x00) as HposB.
  { rewrite Z.abs_eq, le_digits_byte by lia. reflexivity. }
  rewrite !(sendRequest_data_layout sc Hsc) by lia.
  rewrite HnameA, HnameB, HdataA, HdataB, HposA, HposB, ToUint8_of_byte.
  split.
  - do 2 f_equal. rewrite <- app_assoc. do 2 f_equal.
  - eexists. split; [reflexivity|]. unfold nameBuffer in Hname.
    rewrite !length_app, Hname, !length_replicate. reflexivity.
Qed.

Lemma oversized_payloads_collide_witness :
  sendRequest_data sendRequest_scope_with_BN 0 1
    (String.string_of_list_byte (replicate 128 "a"%byte) +:+ byte_string "a")
    45 0 ""
  = sendRequest_data sendRequest_scope_with_BN 0 1
      (String.string_of_list_byte (replicate 128 "a"%byte))
      97 45 (NUL_string 513).
Proof.
  apply (oversized_payloads_collide sendRequest_scope_with_BN 0 1 45
           (String.string_of_list_byte (replicate 128 "a"%byte)) "a"%byte).
  - exact scope_with_BN_complete.
  - by vm_compute.
  - lia.
Defined.

(** ** Accounts and signing *)

(** X15: in every script the only account flagged as signer is the wallet
    of [helper.js], listed first, and it is the key [transaction] pays and
    signs with: whenever the connection returns a blockhash and the envelope
    signs and serialises, [transaction] called with the wallet on a script's
    instruction submits an envelope whose fee payer is the wallet and whose
    signatures cover every signer account of the instruction. *)
Theorem signers_are_the_wallet {W : Type}
    (serialize : Transaction → completion Buffer)
    (compileMessage : Transaction → completion unit) (conn : Connection W)
    (op : Opcode) (payload : Buffer) (w : W) :
  head (keys_of op) = Some (mkAccountMeta (publicKey WALLET) true true)
  ∧ (∀ m, m ∈ keys_of op → isSigner m = true → pubkey m = publicKey WALLET)
  ∧ ∀ blockhash w1 ix raw,
      getLatestBlockhash conn w = (Normal blockhash, w1) →
      signed_envelope compileMessage
        (mkTransactionInstruction (keys_of op) PROGRAM payload)
        blockhash WALLET
      = Normal ix →
      serialize ix = Normal raw →
      Call_sendRawTransaction raw
        ∈ calls (run conn
                   (transaction serialize compileMessage
                      (mkTransactionInstruction (keys_of op) PROGRAM payload)
                      WALLET) w)
      ∧ feePayer ix = Some (publicKey WALLET)
      ∧ ∀ m, m ∈ keys_of op → isSigner m = true → pubkey m ∈ signatures ix.
Proof.
  assert (∀ m, m ∈ keys_of op → isSigner m = true →
               pubkey m = publicKey WALLET) as Hsigners.
  { intros m Hm. apply list_elem_of_In in Hm.
    destruct op; cbn in Hm;
      repeat destruct Hm as [Hm|Hm]; try done; by subst m. }
  split; [by destruct op|]. split; [exact Hsigners|].
  intros blockhash w1 ix raw Hfetch Hsign Hser. split.
  - rewrite transaction_run, Hfetch, Hsign. run_completion. rewrite Hser.
    destruct (sendRawTransaction conn raw w1) as [[sign|e] w2];
      [destruct (confirmTransaction conn sign "confirmed" w2) as [[?|e] w3]|];
      cbn [calls]; apply list_elem_of_further, list_elem_of_here.
  - apply signed_envelope_ok in Hsign as ->. split; [done|].
    intros m Hm Hs. rewrite (Hsigners m Hm Hs). apply list_elem_of_here.
Qed.

Lemma signers_are_the_wallet_witness :
  Call_sendRawTransaction (Buffer_from_string "fresh")
    ∈ calls (run accepting_network
               (transaction blockhash_only any_message
                  (mkTransactionInstruction (keys_of DeleteClient) PROGRAM
                     [x02; x00])
                  WALLET) ()).
Proof.
  destruct (signers_are_the_wallet blockhash_only any_message
              accepting_network DeleteClient [x02; x00] ())
    as (_ & _ & Hsubmit).
  apply (Hsubmit "fresh" ()
           (mkTransaction
              [setComputeUnitLimit 600000;
               mkTransactionInstruction (keys_of DeleteClient) PROGRAM
                 [x02; x00]]
              (Some "fresh") (Some WALLET_publicKey) [WALLET_publicKey]));
    reflexivity.
Defined.
